(** * pyTSEB.TSEBConfigFileInterface: configuration file to TSEB parameters

    A shallow embedding of [src/pyTSEB/TSEBConfigFileInterface.py] and the
    properties of its reader ([MyConfigParser]) and of its orchestrator
    ([TSEBConfigFileInterface]).

    Python objects are values of [pyval]; a raised exception is the [Raise]
    branch of [res]; the interface object's two attributes are a record that
    is passed in and handed back; what is written to standard output and the
    calls made to the external model classes are recorded as a list of
    [event]s. *)

From Stdlib Require Import ZArith String Ascii List Bool.
From Stdlib Require Import Floats.
From stdpp Require Import base option list gmap strings.

Local Open Scope string_scope.
Local Open Scope Z_scope.

(** ** Python values *)

(** The objects that flow through the module: [None], [str], [int], [float]
    (IEEE binary64, as CPython's) and [list]. *)
#[local] Set Warnings "-register-all".
Inductive pyval : Type :=
| VNone
| VStr (s : string)
| VInt (z : Z)
| VFloat (f : float)
| VList (l : list pyval).

(** [int == float] in Python compares the exact mathematical values. *)
Definition float_eq_Z (f : float) (z : Z) : bool :=
  match Prim2SF f with
  | S754_zero _ => z =? 0
  | S754_finite s m e =>
      let v := if s then Z.neg m else Z.pos m in
      if 0 <=? e then z =? v * 2 ^ e else z * 2 ^ (- e) =? v
  | _ => false
  end.

(** Python's [==] on these objects (and [!=] is its negation): values of
    unrelated types are unequal, numbers compare by value, lists compare
    element by element. Floats compare as IEEE numbers. *)
Fixpoint py_eq (a b : pyval) : bool :=
  match a, b with
  | VNone, VNone => true
  | VStr s, VStr t => String.eqb s t
  | VInt x, VInt y => x =? y
  | VFloat x, VFloat y => PrimFloat.eqb x y
  | VInt x, VFloat y => float_eq_Z y x
  | VFloat x, VInt y => float_eq_Z x y
  | VList l, VList m =>
      (fix all2 (l m : list pyval) : bool :=
         match l, m with
         | [], [] => true
         | x :: l', y :: m' => py_eq x y && all2 l' m'
         | _, _ => false
         end) l m
  | _, _ => false
  end.

(** ** Exceptions *)

Inductive exn : Type :=
| NoSectionError (section : string)
| NoOptionError (option section : string)
| ParserError (param type : string)
| ValueError
| AttributeError (name : string)
| KeyError (key : string)
| TypeError (msg : string)
| OSError (path : string)
| ConfigError (msg : string).

(** A computation either returns a value or raises. *)
Inductive res (A : Type) : Type :=
| Ok (a : A)
| Raise (e : exn).
Arguments Ok {A} a.
Arguments Raise {A} e.

#[global] Instance res_ret : MRet res := fun A a => Ok a.
#[global] Instance res_bind : MBind res := fun A B k c =>
  match c with
  | Ok a => k a
  | Raise e => Raise e
  end.
#[global] Instance res_fmap : FMap res := fun A B f c =>
  match c with
  | Ok a => Ok (f a)
  | Raise e => Raise e
  end.

Definition raises {A} (c : res A) : Prop := ∃ e, c = Raise e.

(** A dictionary with string keys. *)
Abbreviation dict := (gmap string pyval).

(** [d[k]]: [KeyError] when the key is absent. *)
Definition getitem (d : dict) (k : string) : res pyval :=
  match d !! k with
  | Some v => Ok v
  | None => Raise (KeyError k)
  end.

(** [{p: f(p) for p in names}]: the entries are computed and stored from
    left to right, and the first call that raises ends the comprehension. *)
Fixpoint dict_comp_from (f : string → res pyval) (acc : dict) (names : list string)
  : res dict :=
  match names with
  | [] => Ok acc
  | p :: ps => v ← f p; dict_comp_from f (<[p:=v]> acc) ps
  end.

Definition dict_comp (f : string → res pyval) (names : list string) : res dict :=
  dict_comp_from f ∅ names.

(** [conf.update(d)]: the entries of [d] win. *)
Definition update (conf d : dict) : dict := d ∪ conf.

(** [s.remove(x)] on a set: [KeyError] when [x] is not a member. *)
Definition set_remove (s : gset string) (x : string) : res (gset string) :=
  if decide (x ∈ s) then Ok (s ∖ {[x]}) else Raise (KeyError x).

(** [str.lower] on a name written in ASCII: the letters [A]-[Z] become
    [a]-[z] and every other character stays. A string is a sequence of
    bytes here, and a byte above 127 is left as it is, so on a name with a
    cased letter outside ASCII the definition is not Python's; every name
    the module itself passes to the reader is ASCII. *)
Definition lower_ascii (c : ascii) : ascii :=
  let n := nat_of_ascii c in
  if ((65 <=? n) && (n <=? 90))%nat then ascii_of_nat (n + 32) else c.

Fixpoint lower (s : string) : string :=
  match s with
  | EmptyString => EmptyString
  | String c s' => String (lower_ascii c) (lower s')
  end.

(** ** The reader: [MyConfigParser]

    The pieces of Python itself that the module calls and does not define
    are parameters of the development: the built-in conversions [int] and
    [float] of a string ([None] stands for [ValueError]), the value
    interpolation that [ConfigParser.get] applies to a stored value, the
    line parser behind [ConfigParser.read_file], and what the point-series
    entry point of an external model class returns. *)

(** The four external model classes of [pyTSEB.PyTSEB]. *)
Inductive model_class : Type := PyTSEB | PyTSEB2T | PyDTD | PydisTSEB.

(** What a call leaves behind outside the interface object: a line printed,
    a model object constructed from a parameter mapping, a call of one of
    the two processing entry points of a model object. *)
Inductive event : Type :=
| Print (line : string)
| Construct (c : model_class) (params : dict)
| ProcessLocalImage (c : model_class)
| ProcessPointSeriesArray (c : model_class).

(** A parser object: the attribute [section] that [__init__] assigns, and
    the inherited store, one mapping of option names to values per section
    and the mapping of the default section. *)
Record MyConfigParser : Type := {
  section : string;
  _sections : gmap string (gmap string string);
  _defaults : gmap string string
}.

(** The interface object: [self.params] and [self.ready]. *)
Record TSEBConfigFileInterface : Type := {
  params : dict;
  ready : bool
}.

(** What a method call on the interface object amounts to: its return value
    or the exception that leaves it, the object afterwards, and the events
    in the order they happened. *)
Record outcome (A : Type) : Type := {
  returned : res A;
  after : TSEBConfigFileInterface;
  events : list event
}.
Arguments returned {A} o.
Arguments after {A} o.
Arguments events {A} o.

(** [configparser.DEFAULTSECT]. *)
Definition default_section : string := "DEFAULT".

(** [ConfigParser.optionxform]: option names are looked up in lower case
    ([str.lower], exact here on ASCII names). *)
Definition optionxform (opt : string) : string := lower opt.

(** The names on which [lower] is Python's [str.lower]: every character is
    ASCII. *)
Fixpoint ascii_name (s : string) : bool :=
  match s with
  | EmptyString => true
  | String c s' => (nat_of_ascii c <? 128)%nat && ascii_name s'
  end.

(** [MyConfigParser(...)], lines 32-34. [top_section] is a required
    positional parameter: a call that does not supply it ([None] here) is a
    [TypeError]; otherwise the object starts with an empty store and the
    argument stored under the attribute [section]. *)
Definition MyConfigParser_new (top_section : option string) : res MyConfigParser :=
  match top_section with
  | None =>
      Raise (TypeError "__init__() missing 1 required positional argument: 'top_section'")
  | Some s => Ok {| section := s; _sections := ∅; _defaults := ∅ |}
  end.

(** The instance attributes of a parser that hold a section name: the one
    [__init__] assigns at line 34, under the name [section]. *)
Definition instance_attributes (self : MyConfigParser) : gmap string string :=
  {["section" := section self]}.

(** [self.<name>] for a name that is no method or attribute of the classes:
    the value the instance holds under it, or [AttributeError]. *)
Definition getattr (self : MyConfigParser) (name : string) : res string :=
  match instance_attributes self !! name with
  | Some v => Ok v
  | None => Raise (AttributeError name)
  end.

(** [ConfigParser._unify_values]: the options visible in a section are its
    own, then the defaults. *)
Definition _unify_values (self : MyConfigParser) (sect : string)
  : res (gmap string string) :=
  match _sections self !! sect with
  | Some sectiondict => Ok (sectiondict ∪ _defaults self)
  | None =>
      if String.eqb sect default_section then Ok (_defaults self)
      else Raise (NoSectionError sect)
  end.

(** [fallback=...] keyword: [None] is "not given", [Some v] the object given. *)
Definition or_fallback (fallback : option pyval) (e : exn) : res pyval :=
  match fallback with
  | None => Raise e
  | Some v => Ok v
  end.

Section Embedding.

(** Python's [int(s)] and [float(s)] on a string. *)
Variable py_int : string → option Z.
Variable py_float : string → option float.

(** [self._interpolation.before_get(self, section, option, value, d)]. *)
Variable before_get :
  MyConfigParser → string → string → string → gmap string string → res string.

(** [ConfigParser._read]: the store after the lines have been parsed into it. *)
Variable _read :
  gmap string (gmap string string) → gmap string string → list string →
  res (gmap string (gmap string string) * gmap string string).

(** [model.process_point_series_array()] of an external model object. *)
Variable process_point_series_array : model_class → dict → pyval * pyval.

(** [ConfigParser.get(self, section, option, *, raw, vars, fallback)]: it
    takes exactly two positional arguments after [self]. *)
Definition ConfigParser_get (self : MyConfigParser) (positional : list string)
    (fallback : option pyval) : res pyval :=
  match positional with
  | [sect; opt] =>
      match _unify_values self sect with
      | Raise e => or_fallback fallback e
      | Ok d =>
          let opt := optionxform opt in
          match d !! opt with
          | None => or_fallback fallback (NoOptionError opt sect)
          | Some value => VStr <$> before_get self sect opt value d
          end
      end
  | _ => Raise (TypeError "get() takes 3 positional arguments")
  end.

(** [MyConfigParser.get], lines 36-37: [option], then [*args] and the
    keywords, handed on behind [self.section]. *)
Definition get (self : MyConfigParser) (opt : string) (args : list string)
    (fallback : option pyval) : res pyval :=
  sect ← getattr self "section";
  ConfigParser_get self (sect :: opt :: args) fallback.

(** [ConfigParser._get_conv]: [conv(self.get(section, option))], where
    [self.get] is the method of the object's own class; a missing section or
    option yields the fallback when one is given. *)
Definition _get_conv (self : MyConfigParser) (sect opt : string)
    (conv : string → option pyval) (fallback : option pyval) : res pyval :=
  match
    v ← get self sect [opt] None;
    match v with
    | VStr s => match conv s with Some x => Ok x | None => Raise ValueError end
    | _ => Raise (TypeError "conversion of a non-string")
    end
  with
  | Raise (NoSectionError s) => or_fallback fallback (NoSectionError s)
  | Raise (NoOptionError o s) => or_fallback fallback (NoOptionError o s)
  | r => r
  end.

Definition ConfigParser_getint (self : MyConfigParser) (sect opt : string)
    (fallback : option pyval) : res pyval :=
  _get_conv self sect opt (λ s, VInt <$> py_int s) fallback.

Definition ConfigParser_getfloat (self : MyConfigParser) (sect opt : string)
    (fallback : option pyval) : res pyval :=
  _get_conv self sect opt (λ s, VFloat <$> py_float s) fallback.

(** [MyConfigParser.getint], lines 39-45. The arguments of the inherited
    call, [self.top_section] first, are evaluated inside the [try]; only
    [ValueError] is handled. *)
Definition getint (self : MyConfigParser) (opt : string)
    (fallback : option pyval) : res pyval :=
  match
    top ← getattr self "top_section";
    ConfigParser_getint self top opt fallback
  with
  | Raise ValueError => Raise (ParserError opt "int")
  | r => r
  end.

(** [MyConfigParser.getfloat], lines 47-53. *)
Definition getfloat (self : MyConfigParser) (opt : string)
    (fallback : option pyval) : res pyval :=
  match
    top ← getattr self "top_section";
    ConfigParser_getfloat self top opt fallback
  with
  | Raise ValueError => Raise (ParserError opt "float")
  | r => r
  end.

(** [ConfigParser.has_option(self, section, option)]. *)
Definition ConfigParser_has_option (self : MyConfigParser) (sect opt : string)
  : bool :=
  if String.eqb sect "" || String.eqb sect default_section then
    bool_decide (is_Some (_defaults self !! optionxform opt))
  else
    match _sections self !! sect with
    | None => false
    | Some sectiondict =>
        bool_decide (is_Some (sectiondict !! optionxform opt))
        || bool_decide (is_Some (_defaults self !! optionxform opt))
    end.

(** [MyConfigParser.has_option], lines 55-56. *)
Definition has_option (self : MyConfigParser) (opt : string) : res bool :=
  sect ← getattr self "section";
  Ok (ConfigParser_has_option self sect opt).

(** ** The schema: the field lists of [TSEBConfigFileInterface] *)

Definition SITE_DESCRIPTION : list string :=
  ["landcover"; "lat"; "lon"; "alt"; "stdlon"; "z_T"; "z_u"; "z0_soil"].

Definition VEGETATION_PROPERTIES : list string :=
  ["leaf_width"; "alpha_PT"; "x_LAD"].

Definition SPECTRAL_PROPERTIES : list string :=
  ["emis_C"; "emis_S"; "rho_vis_C"; "tau_vis_C"; "rho_nir_C"; "tau_nir_C";
   "rho_vis_S"; "rho_nir_S"].

Definition MODEL_FORMULATION : list string :=
  ["model"; "resistance_form"; "KN_b"; "KN_c"; "KN_C_dash"; "G_form";
   "G_constant"; "G_ratio"; "G_amp"; "G_phase"; "G_shape"; "calc_row";
   "row_az"; "output_file"; "correct_LST"; "flux_LR_method"].

Definition IMAGE_VARS : list string :=
  ["T_R1"; "T_R0"; "VZA"; "LAI"; "f_c"; "f_g"; "h_C"; "w_C"; "input_mask";
   "subset"; "time"; "DOY"; "T_A1"; "T_A0"; "u"; "ea"; "S_dn"; "L_dn"; "p";
   "flux_LR"; "flux_LR_ancillary"].

Definition POINT_VARS : list string := ["f_c"; "f_g"; "w_C"].

(** [TSEBConfigFileInterface()], lines 138-141. *)
Definition TSEBConfigFileInterface_new : TSEBConfigFileInterface :=
  {| params := ∅; ready := false |}.

(** [open(path)] on a file system that maps the paths that can be opened to
    their lines. *)
Definition open (fs : gmap string (list string)) (path : string)
  : res (list string) :=
  match fs !! path with
  | Some lines => Ok lines
  | None => Raise (OSError path)
  end.

(** [ConfigParser.read_file]: the lines are parsed into the object's store. *)
Definition read_file (self : MyConfigParser) (lines : list string)
  : res MyConfigParser :=
  store ← _read (_sections self) (_defaults self) lines;
  Ok {| section := section self; _sections := store.1; _defaults := store.2 |}.

(** [parse_input_config], lines 143-152: the parser is constructed with no
    argument, then the file is opened and read behind a ["[top]"] line. *)
Definition parse_input_config (fs : gmap string (list string)) (input_file : string)
  : res MyConfigParser :=
  parser ← MyConfigParser_new None;
  conf_file ← open fs input_file;
  read_file parser ("[top]" :: conf_file).

(** ** The extractors *)

(** [_parse_common_config], lines 154-185. *)
Definition _parse_common_config (parser : MyConfigParser) : res dict :=
  let conf : dict := ∅ in
  model ← get parser "model" [] None;
  let conf := <["model" := model]> conf in
  output_file ← get parser "output_file" [] None;
  let conf := <["output_file" := output_file]> conf in
  resistance_form ← getint parser "resistance_form" (Some VNone);
  let conf := <["resistance_form" := resistance_form]> conf in
  calc_row ← getint parser "calc_row" (Some (VList [VInt 0; VInt 0]));
  let conf := <["calc_row" := calc_row]> conf in
  calc_row ← getitem conf "calc_row";
  conf ← (if negb (py_eq calc_row (VList [VInt 0; VInt 0])) then
            row_az ← getfloat parser "row_az" None;
            Ok (<["calc_row" := VList [VInt 1; row_az]]> conf)
          else Ok conf);
  g_form ← getint parser "G_form" (Some (VInt 1));
  conf ← (if py_eq g_form (VInt 0) then
            g_constant ← getfloat parser "G_constant" None;
            Ok (<["G_form" := VList [VList [VInt 0]; g_constant]]> conf)
          else if py_eq g_form (VInt 2) then
            g_params ← mapM (λ p, getfloat parser p None)
                            ["G_amp"; "G_phase"; "G_shape"];
            Ok (<["G_form" := VList [VList (VInt 2 :: g_params); VFloat 12]]> conf)
          else
            g_ratio ← getfloat parser "G_ratio" None;
            Ok (<["G_form" := VList [VList [VInt 1]; g_ratio]]> conf));
  model ← getitem conf "model";
  if py_eq model (VStr "disTSEB") then
    flux_LR_method ← get parser "flux_LR_method" [] None;
    let conf := <["flux_LR_method" := flux_LR_method]> conf in
    correct_LST ← getint parser "correct_LST" None;
    Ok (<["correct_LST" := correct_LST]> conf)
  else Ok conf.

(** [_parse_image_config], lines 187-210. [conf] is the mapping the function
    itself starts empty; a set is iterated in some order of its elements. *)
Definition _parse_image_config (parser : MyConfigParser) : res dict :=
  let conf : dict := ∅ in
  d ← dict_comp (λ p, get parser p [] None) ["KN_b"; "KN_c"; "KN_C_dash"];
  let conf := update conf d in
  d ← dict_comp (λ p, get parser p [] None) SITE_DESCRIPTION;
  let conf := update conf d in
  d ← dict_comp (λ p, get parser p [] None) VEGETATION_PROPERTIES;
  let conf := update conf d in
  d ← dict_comp (λ p, get parser p [] None) SPECTRAL_PROPERTIES;
  let conf := update conf d in
  let img_vars : gset string := list_to_set IMAGE_VARS in
  model ← getitem conf "model";
  let img_vars :=
    if negb (py_eq model (VStr "DTD")) then img_vars ∖ {["T_A0"; "T_R0"]}
    else img_vars in
  model ← getitem conf "model";
  let img_vars :=
    if negb (py_eq model (VStr "disTSEB"))
    then img_vars ∖ {["flux_LR"; "flux_LR_ancillary"]}
    else img_vars in
  has_subset ← has_option parser "subset";
  img_vars ← (if negb has_subset then set_remove img_vars "subset"
              else Ok img_vars);
  d ← dict_comp (λ p, get parser p [] None) (elements img_vars);
  Ok (update conf d).

(** [_parse_point_config], lines 212-228. *)
Definition _parse_point_config (parser : MyConfigParser) : res dict :=
  let conf : dict := ∅ in
  d ← dict_comp (λ p, getfloat parser p None) ["KN_b"; "KN_c"; "KN_C_dash"];
  let conf := update conf d in
  d ← dict_comp (λ p, getfloat parser p None) SITE_DESCRIPTION;
  let conf := update conf d in
  d ← dict_comp (λ p, getfloat parser p None) VEGETATION_PROPERTIES;
  let conf := update conf d in
  d ← dict_comp (λ p, getfloat parser p None) SPECTRAL_PROPERTIES;
  let conf := update conf d in
  input_file ← get parser "input_file" [] None;
  let conf := <["input_file" := input_file]> conf in
  d ← dict_comp (λ p, get parser p [] None) POINT_VARS;
  Ok (update conf d).

(** ** The orchestrator *)

(** [get_data], lines 230-247. The common fields are extracted before the
    [try]; the two handlers print and fall through to the assignment of
    [self.params]; any other exception leaves the method. *)
Definition get_data (self : TSEBConfigFileInterface) (parser : MyConfigParser)
    (is_image : bool) : outcome unit :=
  match _parse_common_config parser with
  | Raise e => {| returned := Raise e; after := self; events := [] |}
  | Ok conf =>
      match (if is_image then _parse_image_config parser
             else _parse_point_config parser) with
      | Ok d =>
          {| returned := Ok ();
             after := {| params := update conf d; ready := true |};
             events := [] |}
      | Raise (NoOptionError o _) =>
          {| returned := Ok ();
             after := {| params := conf; ready := ready self |};
             events := [Print ("Error: missing parameter " +:+ o)] |}
      | Raise (ParserError param type) =>
          {| returned := Ok ();
             after := {| params := conf; ready := ready self |};
             events := [Print ("Error: could not parse parameter " +:+ param
                               +:+ " as type " +:+ type)] |}
      | Raise e => {| returned := Raise e; after := self; events := [] |}
      end
  end.



(** The tail of [run] once a model class is chosen, lines 263-267. *)
Definition run_model (c : model_class) (self : TSEBConfigFileInterface)
    (is_image : bool) : outcome (option (pyval * pyval)) :=
  if is_image then
    {| returned := Ok None; after := self;
       events := [Construct c (params self); ProcessLocalImage c] |}
  else
    {| returned := Ok (Some (process_point_series_array c (params self)));
       after := self;
       events := [Construct c (params self); ProcessPointSeriesArray c] |}.

(** [run], lines 249-269. Python's [None] is [None]; the pair of the point
    series is [Some]. *)
Definition run (self : TSEBConfigFileInterface) (is_image : bool)
  : outcome (option (pyval * pyval)) :=
  if ready self then
    match getitem (params self) "model" with
    | Raise e => {| returned := Raise e; after := self; events := [] |}
    | Ok model =>
        if py_eq model (VStr "TSEB_PT") then run_model PyTSEB self is_image
        else if py_eq model (VStr "TSEB_2T") then run_model PyTSEB2T self is_image
        else if py_eq model (VStr "DTD") then run_model PyDTD self is_image
        else if py_eq model (VStr "disTSEB") then run_model PydisTSEB self is_image
        else
          match model with
          | VStr name =>
              {| returned := Ok None; after := self;
                 events := [Print ("Unknown model: " +:+ name +:+ "!")] |}
          | _ =>
              {| returned := Raise (TypeError "can only concatenate str to str");
                 after := self; events := [] |}
          end
    end
  else
    {| returned := Ok None; after := self;
       events := [Print "pyTSEB will not be run due to errors in the input data."] |}.

(** The states of an interface object that method calls can lead to. *)
Inductive reachable : TSEBConfigFileInterface → Prop :=
| reachable_new : reachable TSEBConfigFileInterface_new
| reachable_get_data self parser is_image :
    reachable self → reachable (after (get_data self parser is_image))
| reachable_run self is_image :
    reachable self → reachable (after (run self is_image)).

(** ** Configurations used as concrete inputs *)

(** The parser a successful read of a flat file leaves: every entry in the
    one section ["top"], its name in lower case as [optionxform] makes it. *)
Definition config (entries : list (string * string)) : MyConfigParser :=
  {| section := "top";
     _sections := {["top" := list_to_map (prod_map optionxform id <$> entries)]};
     _defaults := ∅ |}.

Definition cfg_empty : MyConfigParser := config [].

(** [G_form = 0] with [G_constant = 5.0]. *)
Definition cfg_G_constant : MyConfigParser :=
  config [("model", "TSEB_PT"); ("output_file", "out.tif");
          ("G_form", "0"); ("G_constant", "5.0")].

(** [G_form = 2] with amplitude 1, phase 2 and shape 3. *)
Definition cfg_G_params : MyConfigParser :=
  config [("model", "TSEB_PT"); ("output_file", "out.tif"); ("G_form", "2");
          ("G_amp", "1"); ("G_phase", "2"); ("G_shape", "3")].

(** [G_form] and [calc_row] omitted, [G_ratio = 0.3]. *)
Definition cfg_G_ratio : MyConfigParser :=
  config [("model", "TSEB_PT"); ("output_file", "out.tif"); ("G_ratio", "0.3")].

(** [calc_row = 1] with [row_az = 45.0]. *)
Definition cfg_calc_row_1 : MyConfigParser :=
  config [("model", "TSEB_PT"); ("output_file", "out.tif");
          ("calc_row", "1"); ("row_az", "45.0"); ("G_ratio", "0.35")].

(** [calc_row = 0] with [row_az = 45.0]. *)
Definition cfg_calc_row_0 : MyConfigParser :=
  config [("model", "TSEB_PT"); ("output_file", "out.tif");
          ("calc_row", "0"); ("row_az", "45.0"); ("G_ratio", "0.35")].

(** Every common field of a [disTSEB] run but [flux_LR_method]. *)
Definition cfg_disTSEB_no_method : MyConfigParser :=
  config [("model", "disTSEB"); ("output_file", "out.tif");
          ("resistance_form", "0"); ("calc_row", "0"); ("G_form", "1");
          ("G_ratio", "0.35"); ("correct_LST", "1")].

(** Every field image-mode extraction reads as a string before it looks at
    the model, with the model set to [TSEB_PT]. *)
Definition cfg_image_TSEB_PT : MyConfigParser :=
  config ([("model", "TSEB_PT"); ("output_file", "out.tif")]
          ++ ((λ p, (p, "0.5")) <$>
              (["KN_b"; "KN_c"; "KN_C_dash"] ++ SITE_DESCRIPTION
               ++ VEGETATION_PROPERTIES ++ SPECTRAL_PROPERTIES))
          ++ ((λ p, (p, p +:+ ".tif")) <$> IMAGE_VARS))%list.

(** Every field of point mode numeric, but [lat]. *)
Definition cfg_point_lat_abc : MyConfigParser :=
  config ([("model", "TSEB_PT"); ("output_file", "out.txt");
           ("input_file", "in.txt"); ("lat", "abc")]
          ++ ((λ p, (p, "0.5")) <$>
              (["KN_b"; "KN_c"; "KN_C_dash"] ++ SITE_DESCRIPTION
               ++ VEGETATION_PROPERTIES ++ SPECTRAL_PROPERTIES ++ POINT_VARS)))%list.

(** Stand-ins for the parameters of the development, to evaluate the
    definitions on the configurations above: conversions that accept no
    string, the two interpolations a parser can be constructed with, a line
    parser that leaves the store alone, and empty point series. *)
Definition no_conversion {A : Type} : string → option A := λ _, None.

(** [Interpolation.before_get], the interpolation of a parser constructed
    with [interpolation=None] (a keyword [__init__] hands on to
    [ConfigParser]): the stored value is returned as it is. *)
Definition plain_value
  : MyConfigParser → string → string → string → gmap string string → res string :=
  λ _ _ _ value _, Ok value.

(** [BasicInterpolation.before_get], the interpolation of a parser
    constructed without that keyword, on a [MyConfigParser]: its first step
    is [parser.get(section, option, raw=True, fallback=rest)], two
    positional arguments to the overriding [get], and that call raises
    [TypeError] (lemma [get_extra_positional]). *)
Definition basic_interpolation
  : MyConfigParser → string → string → string → gmap string string → res string :=
  λ _ _ _ _ _, Raise (TypeError "get() takes 3 positional arguments").


Definition no_lines
  : gmap string (gmap string string) → gmap string string → list string →
    res (gmap string (gmap string string) * gmap string string) :=
  λ sections defaults _, Ok (sections, defaults).

Definition no_series : model_class → dict → pyval * pyval :=
  λ _ _, (VList [], VList []).

(** The model name under which [run] selects each class, lines 252-259. *)
Definition class_name (c : model_class) : string :=
  match c with
  | PyTSEB => "TSEB_PT"
  | PyTSEB2T => "TSEB_2T"
  | PyDTD => "DTD"
  | PydisTSEB => "disTSEB"
  end.

(** A parser as the constructor leaves it, nothing read into it. *)
Definition unread (top_section : string) : MyConfigParser :=
  {| section := top_section; _sections := ∅; _defaults := ∅ |}.

(** The parser with one more section in its store. *)
Definition with_section (other : string) (content : gmap string string)
    (self : MyConfigParser) : MyConfigParser :=
  {| section := section self;
     _sections := <[other := content]> (_sections self);
     _defaults := _defaults self |}.

(** Objects whose attributes were assigned from outside: ready, with a
    mapping that names a model. *)
Definition ready_with_model (name : string) : TSEBConfigFileInterface :=
  {| params := {["model" := VStr name; "output_file" := VStr "out.txt"]};
     ready := true |}.

Definition ready_without_model : TSEBConfigFileInterface :=
  {| params := {["output_file" := VStr "out.txt"]}; ready := true |}.

(** ** Raising computations *)

Lemma bind_Ok {A B} (a : A) (k : A → res B) : (Ok a ≫= k) = k a.
Proof. reflexivity. Qed.

Lemma bind_Raise {A B} (e : exn) (k : A → res B) : (Raise e ≫= k) = Raise e.
Proof. reflexivity. Qed.

Lemma raises_Raise {A} (e : exn) : raises (Raise e : res A).
Proof. by exists e. Qed.

(** A computation that ends in a [raise] raises, whatever comes before. *)
Lemma raises_bind_Raise {A B} (c : res A) (e : exn) :
  raises (c ≫= λ _, Raise e : res B).
Proof. destruct c as [a|e']; [exists e | exists e']; reflexivity. Qed.

Lemma raises_bind {A B} (c : res A) (k : A → res B) :
  (∀ a, raises (k a)) → raises (c ≫= k).
Proof. intros Hk. destruct c as [a|e]; [apply Hk | apply raises_Raise]. Qed.

(** ** The reader *)

Lemma getint_top_section self opt fallback :
  getint self opt fallback = Raise (AttributeError "top_section").
Proof. reflexivity. Qed.

Lemma getfloat_top_section self opt fallback :
  getfloat self opt fallback = Raise (AttributeError "top_section").
Proof. reflexivity. Qed.

(** The string accessor does find its section attribute. *)
Lemma get_section self opt args fallback :
  get self opt args fallback
  = ConfigParser_get self (section self :: opt :: args) fallback.
Proof. reflexivity. Qed.

(** C9. For every parser, option name and fallback, [getint] and [getfloat]
    return no value and do not raise [ParserError]: each call ends in the
    [AttributeError] of the lookup of [top_section], an attribute the
    constructor never assigns (it assigns [section]), whether or not the
    option is present or parseable. *)
Theorem int_float_accessors_always_fail self opt fallback :
  getint self opt fallback = Raise (AttributeError "top_section")
  ∧ getfloat self opt fallback = Raise (AttributeError "top_section").
Proof. split; [apply getint_top_section | apply getfloat_top_section]. Qed.

(** C3. [parse_input_config] returns no parser for any path, whether the
    file can be opened or not: the constructor call without [top_section]
    raises [TypeError] before the file is opened. *)
Theorem parse_input_config_type_error fs input_file :
  parse_input_config fs input_file
  = Raise (TypeError "__init__() missing 1 required positional argument: 'top_section'").
Proof.
  unfold parse_input_config.
  change (MyConfigParser_new None) with
    (Raise (A:=MyConfigParser)
       (TypeError "__init__() missing 1 required positional argument: 'top_section'")).
  apply bind_Raise.
Qed.

(** ** The extractors *)

(** Common extraction gets as far as the two string reads; the integer read
    of [resistance_form] that follows them raises. *)
Lemma _parse_common_config_stops parser :
  _parse_common_config parser
  = (_ ← get parser "model" [] None;
     _ ← get parser "output_file" [] None;
     Raise (AttributeError "top_section")).
Proof.
  unfold _parse_common_config.
  destruct (get parser "model" [] None) as [model|e]; [|reflexivity].
  cbn. destruct (get parser "output_file" [] None) as [out|e]; reflexivity.
Qed.

Lemma _parse_common_config_raises parser : raises (_parse_common_config parser).
Proof.
  rewrite _parse_common_config_stops.
  apply raises_bind; intros _. apply raises_bind_Raise.
Qed.

(** C6. Point-mode extraction coerces no field and raises no [ParserError]:
    for every parser its first float read, of [KN_b], raises the
    [AttributeError] of [top_section], so no value of [lat], numeric or
    not, is ever looked at. *)
Theorem parse_point_config_attribute_error parser :
  _parse_point_config parser = Raise (AttributeError "top_section").
Proof.
  unfold _parse_point_config, dict_comp. simpl dict_comp_from.
  by rewrite getfloat_top_section.
Qed.

(** A comprehension stores nothing under a name it does not iterate over. *)
Lemma dict_comp_from_lookup f names : ∀ (acc d : dict) (k : string),
  dict_comp_from f acc names = Ok d → k ∉ names → d !! k = acc !! k.
Proof.
  induction names as [|p ps IH]; intros acc d k Hd Hk; simpl in Hd.
  - by injection Hd as <-.
  - apply not_elem_of_cons in Hk as [Hkp Hk].
    destruct (f p) as [v|e]; [rewrite bind_Ok in Hd | by rewrite bind_Raise in Hd].
    rewrite (IH _ _ _ Hd Hk). by apply lookup_insert_ne.
Qed.

Lemma dict_comp_lookup f names (d : dict) (k : string) :
  dict_comp f names = Ok d → k ∉ names → d !! k = None.
Proof.
  intros Hd Hk. unfold dict_comp in Hd.
  by rewrite (dict_comp_from_lookup _ _ _ _ _ Hd Hk).
Qed.

Lemma update_lookup_None (conf d : dict) (k : string) :
  conf !! k = None → d !! k = None → update conf d !! k = None.
Proof. intros Hc Hd. unfold update. by apply lookup_union_None. Qed.

Lemma getitem_None (d : dict) (k : string) :
  d !! k = None → getitem d k = Raise (KeyError k).
Proof. intros H. unfold getitem. by rewrite H. Qed.

(** Membership of a string in a literal list, decided by computation. *)
Ltac decide_elem := apply (bool_decide_unpack _); vm_compute; exact I.

(** C2. Image-mode extraction computes no image-variable set and returns no
    mapping: for every parser, once the string reads of the coefficient,
    site, vegetation and spectral fields are through, the lookup of
    ['model'] in the function's own mapping, which holds those fields only,
    raises [KeyError]; a failing read raises earlier. *)
Theorem parse_image_config_key_error parser :
  _parse_image_config parser
  = (_ ← dict_comp (λ p, get parser p [] None) ["KN_b"; "KN_c"; "KN_C_dash"];
     _ ← dict_comp (λ p, get parser p [] None) SITE_DESCRIPTION;
     _ ← dict_comp (λ p, get parser p [] None) VEGETATION_PROPERTIES;
     _ ← dict_comp (λ p, get parser p [] None) SPECTRAL_PROPERTIES;
     Raise (KeyError "model"))
  ∧ raises (_parse_image_config parser).
Proof.
  assert (_parse_image_config parser
    = (_ ← dict_comp (λ p, get parser p [] None) ["KN_b"; "KN_c"; "KN_C_dash"];
       _ ← dict_comp (λ p, get parser p [] None) SITE_DESCRIPTION;
       _ ← dict_comp (λ p, get parser p [] None) VEGETATION_PROPERTIES;
       _ ← dict_comp (λ p, get parser p [] None) SPECTRAL_PROPERTIES;
       Raise (KeyError "model"))) as Heq.
  { unfold _parse_image_config.
    destruct (dict_comp _ ["KN_b"; "KN_c"; "KN_C_dash"]) as [d1|e] eqn:H1;
      [rewrite !bind_Ok | reflexivity].
    destruct (dict_comp _ SITE_DESCRIPTION) as [d2|e] eqn:H2;
      [rewrite !bind_Ok | reflexivity].
    destruct (dict_comp _ VEGETATION_PROPERTIES) as [d3|e] eqn:H3;
      [rewrite !bind_Ok | reflexivity].
    destruct (dict_comp _ SPECTRAL_PROPERTIES) as [d4|e] eqn:H4;
      [rewrite !bind_Ok | reflexivity].
    rewrite getitem_None; [reflexivity|].
    repeat apply update_lookup_None; [apply lookup_empty | ..];
      (eapply dict_comp_lookup; [eassumption | decide_elem]). }
  split; [exact Heq|].
  rewrite Heq. do 3 (apply raises_bind; intros _). apply raises_bind_Raise.
Qed.

(** C4. Common extraction yields no [G_form] field on the three
    configurations of the claim ([G_form = 0] with [G_constant = 5.0];
    [G_form = 2] with the three sub-parameters; [G_form] omitted with
    [G_ratio = 0.3]): each call raises, at the latest on the integer read of
    [resistance_form] that comes before the one of [G_form]. *)
Theorem parse_common_config_G_form_raises :
  raises (_parse_common_config cfg_G_constant)
  ∧ raises (_parse_common_config cfg_G_params)
  ∧ raises (_parse_common_config cfg_G_ratio).
Proof. repeat split; apply _parse_common_config_raises. Qed.

(** C7. Common extraction yields no [calc_row] field, neither [[0, 0]] with
    [calc_row] omitted nor [[1, 45.0]] with [calc_row = 1] and
    [row_az = 45.0]: on both configurations it stops, after the two string
    reads, at the integer read of [resistance_form], two lines above the
    read of [calc_row]. *)
Theorem parse_common_config_calc_row_stops :
  _parse_common_config cfg_G_ratio
  = (_ ← get cfg_G_ratio "model" [] None;
     _ ← get cfg_G_ratio "output_file" [] None;
     Raise (AttributeError "top_section"))
  ∧ _parse_common_config cfg_calc_row_1
    = (_ ← get cfg_calc_row_1 "model" [] None;
       _ ← get cfg_calc_row_1 "output_file" [] None;
       Raise (AttributeError "top_section")).
Proof. split; apply _parse_common_config_stops. Qed.

(** An integer is never equal to the list [[0, 0]]. *)
Lemma int_ne_sentinel (z : Z) : py_eq (VInt z) (VList [VInt 0; VInt 0]) = false.
Proof. reflexivity. Qed.

(** C10. With [calc_row = 0] and [row_az = 45.0] common extraction yields
    no [calc_row] field at all, [[1, 45.0]] no more than [[0, 0]], and with
    [calc_row] omitted it does not yield [[0, 0]]: both calls raise before
    the comparison with the sentinel is reached. *)
Theorem parse_common_config_calc_row_0_raises :
  raises (_parse_common_config cfg_calc_row_0)
  ∧ raises (_parse_common_config cfg_G_ratio).
Proof. split; apply _parse_common_config_raises. Qed.

(** ** The orchestrator *)

Lemma get_data_common_raise self parser is_image e :
  _parse_common_config parser = Raise e →
  get_data self parser is_image
  = {| returned := Raise e; after := self; events := [] |}.
Proof. intros He. unfold get_data. by rewrite He. Qed.

(** Every load ends in an exception that leaves [get_data], with the object
    as it was and nothing printed. *)
Lemma get_data_raises self parser is_image :
  ∃ e, get_data self parser is_image
       = {| returned := Raise e; after := self; events := [] |}.
Proof.
  destruct (_parse_common_config_raises parser) as [e He].
  exists e. by apply get_data_common_raise.
Qed.

(** [run] assigns no attribute. *)
Lemma run_after self is_image : after (run self is_image) = self.
Proof. unfold run, run_model. by repeat case_match. Qed.

(** No sequence of method calls moves the object away from its initial
    state. *)
Lemma reachable_initial self : reachable self → self = TSEBConfigFileInterface_new.
Proof.
  induction 1 as [|self parser is_image _ IH|self is_image _ IH].
  - reflexivity.
  - destruct (get_data_raises self parser is_image) as [e ->]. exact IH.
  - by rewrite run_after.
Qed.

(** C1. [get_data] neither reports a failed extraction nor keeps its
    exception from the caller: for every object, parser and mode the call
    ends in an exception that leaves the method, the object unchanged and
    nothing printed; so it does on the [disTSEB] configuration that lacks
    [flux_LR_method], where no report of that field is printed. *)
Theorem get_data_exception_propagates self is_image :
  (∀ parser, ∃ e,
     get_data self parser is_image
     = {| returned := Raise e; after := self; events := [] |})
  ∧ raises (returned (get_data self cfg_disTSEB_no_method is_image))
  ∧ events (get_data self cfg_disTSEB_no_method is_image) = [].
Proof.
  split; [intros parser; apply get_data_raises|].
  destruct (get_data_raises self cfg_disTSEB_no_method is_image) as [e ->].
  split; [apply raises_Raise | reflexivity].
Qed.



(** C8. With readiness false, in either mode, [run] returns [None] and its
    only effect is the one printed line: no model object is constructed and
    no processing entry point is called. *)
Theorem run_not_ready self is_image :
  ready self = false →
  run self is_image
  = {| returned := Ok None; after := self;
       events := [Print "pyTSEB will not be run due to errors in the input data."] |}.
Proof. intros Hready. unfold run. by rewrite Hready. Qed.

(** ** Further properties of the reader *)

Lemma getattr_section self : getattr self "section" = Ok (section self).
Proof. reflexivity. Qed.

Lemma lower_ascii_idemp c : lower_ascii (lower_ascii c) = lower_ascii c.
Proof. by destruct c as [[] [] [] [] [] [] [] []]. Qed.

Lemma optionxform_idemp opt : optionxform (optionxform opt) = optionxform opt.
Proof.
  unfold optionxform. induction opt as [|c opt IH]; [done|].
  simpl. by rewrite lower_ascii_idemp, IH.
Qed.

Lemma eqb_ne (a b : string) : a ≠ b → String.eqb a b = false.
Proof. intros H. by apply String.eqb_neq. Qed.

(** A call of [get] with more positional arguments than the option raises
    [TypeError], whatever the interpolation, the store and the fallback. *)
Lemma get_extra_positional self opt a args fallback :
  get self opt (a :: args) fallback
  = Raise (TypeError "get() takes 3 positional arguments").
Proof. unfold get. by rewrite getattr_section, bind_Ok. Qed.

(** The names the module passes to the reader are ASCII. *)
Lemma schema_names_ascii :
  Forall (λ p, ascii_name p = true)
    (MODEL_FORMULATION ++ SITE_DESCRIPTION ++ VEGETATION_PROPERTIES
     ++ SPECTRAL_PROPERTIES ++ IMAGE_VARS ++ POINT_VARS ++ ["input_file"])%list.
Proof. repeat constructor. Qed.

(** Folding an ASCII name leaves an ASCII name. *)
Lemma ascii_name_optionxform opt :
  ascii_name opt = true → ascii_name (optionxform opt) = true.
Proof.
  unfold optionxform. induction opt as [|c opt IH]; [done|]. simpl.
  intros [Hc Hopt]%andb_prop. rewrite (IH Hopt), andb_true_r.
  revert Hc. by destruct c as [[] [] [] [] [] [] [] []].
Qed.

(** X1. Option names written in ASCII are looked up without regard to
    case: for every parser, [get] and [has_option] with such a name give
    what they give with the name in lower case, itself ASCII, error
    included. *)
Theorem accessors_fold_case self opt args fallback :
  ascii_name opt = true →
  ascii_name (optionxform opt) = true
  ∧ get self opt args fallback = get self (optionxform opt) args fallback
  ∧ has_option self opt = has_option self (optionxform opt).
Proof.
  intros Hascii. split; [by apply ascii_name_optionxform|].
  split.
  - unfold get. rewrite getattr_section, !bind_Ok.
    destruct args as [|a args]; [|reflexivity].
    unfold ConfigParser_get. by rewrite optionxform_idemp.
  - unfold has_option, ConfigParser_has_option.
    by rewrite optionxform_idemp.
Qed.


(** X3. A section other than the parser's own is invisible to [has_option]:
    adding or replacing one in the store changes no answer. *)
Theorem has_option_own_section self other content opt :
  other ≠ section self →
  has_option (with_section other content self) opt = has_option self opt.
Proof.
  intros Hother. unfold has_option.
  rewrite !getattr_section, !bind_Ok. f_equal.
  unfold ConfigParser_has_option, with_section. simpl.
  by rewrite lookup_insert_ne.
Qed.

(** X4. The inherited conversions cannot be served by the overriding [get]:
    whatever section and option they are called with, they pass both on as
    positional arguments, [get] puts [self.section] in front, and the
    inherited [get] refuses the third; a fallback does not help. *)
Theorem inherited_conversions_type_error self sect opt fallback :
  ConfigParser_getint self sect opt fallback
  = Raise (TypeError "get() takes 3 positional arguments")
  ∧ ConfigParser_getfloat self sect opt fallback
    = Raise (TypeError "get() takes 3 positional arguments").
Proof.
  unfold ConfigParser_getint, ConfigParser_getfloat, _get_conv, get.
  by rewrite getattr_section, !bind_Ok.
Qed.

(** X5. A parser on which nothing was read has no option: constructed with
    a section name other than the default one, it answers every
    [has_option] with false and every [get] without fallback with
    [NoSectionError] for that name. *)
Theorem unread_parser_has_nothing top_section opt :
  top_section ≠ default_section →
  MyConfigParser_new (Some top_section) = Ok (unread top_section)
  ∧ has_option (unread top_section) opt = Ok false
  ∧ get (unread top_section) opt [] None = Raise (NoSectionError top_section).
Proof.
  intros Hdefault. split; [reflexivity|]. split.
  - unfold has_option. rewrite getattr_section, bind_Ok.
    unfold ConfigParser_has_option, unread. simpl.
    rewrite !lookup_empty. by destruct (_ || _).
  - unfold get. rewrite getattr_section, bind_Ok.
    unfold ConfigParser_get, _unify_values, unread. simpl.
    by rewrite lookup_empty, (eqb_ne _ _ Hdefault).
Qed.

(** ** Further properties of the extractors *)

Lemma dict_comp_from_lookup_Some f names : ∀ (acc d : dict) (p : string) (v : pyval),
  dict_comp_from f acc names = Ok d →
  (d !! p = Some v ↔
    (p ∈ names ∧ f p = Ok v) ∨ ((p ∉ names) ∧ acc !! p = Some v)).
Proof.
  induction names as [|q qs IH]; intros acc d p v Hd; simpl in Hd.
  - injection Hd as <-. split.
    + intros Hp. right. split; [apply not_elem_of_nil | done].
    + intros [[Hp _]|[_ Hp]]; [by apply elem_of_nil in Hp | done].
  - destruct (f q) as [w|e] eqn:Hq;
      [rewrite bind_Ok in Hd | by rewrite bind_Raise in Hd].
    rewrite (IH _ _ p v Hd). clear IH Hd.
    destruct (decide (p = q)) as [->|Hpq].
    + rewrite lookup_insert_eq, Hq. split.
      * intros [[_ Hv]|[_ Hv]]; left; (split; [by left | congruence]).
      * intros [[_ Hv]|[Hne _]]; [|by destruct Hne; left].
        destruct (decide (q ∈ qs)); [left | right]; (split; [done | congruence]).
    + rewrite lookup_insert_ne by done. split.
      * intros [[Hp Hv]|[Hp Hv]]; [left | right]; (split; [|done]).
        { by right. }
        { by intros [?|?]%elem_of_cons. }
      * intros [[[?|Hp]%elem_of_cons Hv]|[Hp Hv]]; [done | by left | right].
        split; [|done]. intros ?. apply Hp. by right.
Qed.

(** X6. The mapping a comprehension [{p: f(p) for p in names}] returns
    holds exactly the names it iterated over, each with the value [f] gave
    for it. *)
Theorem dict_comp_entries f names (d : dict) (p : string) (v : pyval) :
  dict_comp f names = Ok d →
  (d !! p = Some v ↔ p ∈ names ∧ f p = Ok v).
Proof.
  intros Hd. unfold dict_comp in Hd.
  rewrite (dict_comp_from_lookup_Some _ _ _ _ p v Hd), lookup_empty.
  split; [intros [H|[_ H]]; [exact H | done] | by left].
Qed.

Lemma dict_comp_from_first_raise f done_ p rest e : ∀ acc : dict,
  Forall (λ q, ∃ v, f q = Ok v) done_ →
  f p = Raise e →
  dict_comp_from f acc (done_ ++ p :: rest) = Raise e.
Proof.
  induction done_ as [|q qs IH]; intros acc Hok Hp; simpl.
  - by rewrite Hp.
  - apply Forall_cons in Hok as [[v Hv] Hok].
    rewrite Hv, bind_Ok. by apply IH.
Qed.

(** X7. A comprehension ends with the exception of the first name on which
    [f] raises: the names after it are not looked at and no mapping is
    returned. *)
Theorem dict_comp_first_raise f done_ p rest e :
  Forall (λ q, ∃ v, f q = Ok v) done_ →
  f p = Raise e →
  dict_comp f (done_ ++ p :: rest) = Raise e.
Proof. intros Hok Hp. by apply dict_comp_from_first_raise. Qed.

Lemma get_missing self opt (sectiondict : gmap string string) :
  _sections self !! section self = Some sectiondict →
  sectiondict !! optionxform opt = None →
  _defaults self !! optionxform opt = None →
  get self opt [] None = Raise (NoOptionError (optionxform opt) (section self)).
Proof.
  intros Hsect Hs Hdef. unfold get. rewrite getattr_section, bind_Ok.
  unfold ConfigParser_get, _unify_values. rewrite Hsect.
  assert ((sectiondict ∪ _defaults self) !! optionxform opt = None) as Hd
    by (by apply lookup_union_None).
  by rewrite Hd.
Qed.

Lemma get_no_section self opt :
  _sections self !! section self = None →
  section self ≠ default_section →
  get self opt [] None = Raise (NoSectionError (section self)).
Proof.
  intros Hsect Hdefault. unfold get. rewrite getattr_section, bind_Ok.
  unfold ConfigParser_get, _unify_values.
  by rewrite Hsect, (eqb_ne _ _ Hdefault).
Qed.

(** X8. Image-mode extraction on a parser whose section and defaults lack
    [KN_b] raises [NoOptionError] for it at its first read, and the
    exception carries the name in lower case, [kn_b], with the parser's
    section. *)
Theorem parse_image_config_missing_KN_b parser (sectiondict : gmap string string) :
  _sections parser !! section parser = Some sectiondict →
  sectiondict !! "kn_b" = None →
  _defaults parser !! "kn_b" = None →
  _parse_image_config parser = Raise (NoOptionError "kn_b" (section parser)).
Proof.
  intros Hsect Hs Hdef. unfold _parse_image_config.
  rewrite (dict_comp_first_raise _ [] "KN_b" ["KN_c"; "KN_C_dash"]
             (NoOptionError "kn_b" (section parser))); [done | done |].
  by apply (get_missing parser "KN_b" sectiondict).
Qed.

(** X18. Common extraction returns a mapping for no parser at all: it
    raises what the string read of [model] or of [output_file] raises, and
    when both reads succeed the [AttributeError] of [top_section]; no other
    option of the configuration is looked at. *)
Theorem parse_common_config_never_returns parser :
  _parse_common_config parser
  = (_ ← get parser "model" [] None;
     _ ← get parser "output_file" [] None;
     Raise (AttributeError "top_section"))
  ∧ raises (_parse_common_config parser).
Proof.
  split; [apply _parse_common_config_stops | apply _parse_common_config_raises].
Qed.

(** ** Further properties of the orchestrator *)

(** X9. The mode flag has no bearing on a load: [get_data] does the same
    in image mode and in point mode, on every object and parser. *)
Theorem get_data_mode_irrelevant self parser :
  get_data self parser true = get_data self parser false.
Proof.
  destruct (_parse_common_config_raises parser) as [e He].
  by rewrite !(get_data_common_raise _ _ _ _ He).
Qed.

(** X10. A load from a parser whose section is not in its store (and is not
    the default section) ends in [NoSectionError] for that section: the
    exception leaves [get_data], the object is unchanged and nothing is
    printed. *)
Theorem get_data_no_section self parser is_image :
  _sections parser !! section parser = None →
  section parser ≠ default_section →
  get_data self parser is_image
  = {| returned := Raise (NoSectionError (section parser));
       after := self; events := [] |}.
Proof.
  intros Hsect Hdefault. apply get_data_common_raise.
  rewrite _parse_common_config_stops.
  by rewrite (get_no_section parser "model" Hsect Hdefault).
Qed.

(** X11. A load from a configuration without [model] is not reported as a
    missing parameter: the [NoOptionError] for [model] leaves [get_data],
    with the object unchanged and nothing printed. *)
Theorem get_data_missing_model self parser is_image
    (sectiondict : gmap string string) :
  _sections parser !! section parser = Some sectiondict →
  sectiondict !! "model" = None →
  _defaults parser !! "model" = None →
  get_data self parser is_image
  = {| returned := Raise (NoOptionError "model" (section parser));
       after := self; events := [] |}.
Proof.
  intros Hsect Hs Hdef. apply get_data_common_raise.
  rewrite _parse_common_config_stops.
  by rewrite (get_missing parser "model" sectiondict).
Qed.

(** X12. No sequence of [get_data] and [run] calls on a new object ever
    gets a model run: on every object so reached, in either mode, [run]
    returns [None] and only prints that pyTSEB will not be run. *)
Theorem reachable_run_blocked self is_image :
  reachable self →
  run self is_image
  = {| returned := Ok None; after := self;
       events := [Print "pyTSEB will not be run due to errors in the input data."] |}.
Proof. intros Hself. by rewrite (reachable_initial self Hself). Qed.

Lemma py_eq_VStr (v : pyval) (s : string) : py_eq v (VStr s) = true → v = VStr s.
Proof.
  destruct v as [|t|z|x|l]; simpl; try discriminate.
  intros H. by apply String.eqb_eq in H as ->.
Qed.

(** The case of [run] in which a model is constructed: the event is the
    construction, and the comparison [H] that chose it fixes the name. *)
Ltac constructed H mode :=
  apply py_eq_VStr in H as ->; destruct mode; simpl;
  intros [[= -> ->]|[=]%list_elem_of_singleton]%elem_of_cons.

(** X13. [run] selects the model class by the exact name: when it
    constructs a model object, the object is ready, the model is built from
    the stored mapping itself, and the mapping's [model] is the string that
    names the class. *)
Theorem run_constructs_by_name self is_image c p :
  Construct c p ∈ events (run self is_image) →
  ready self = true
  ∧ p = params self
  ∧ params self !! "model" = Some (VStr (class_name c)).
Proof.
  unfold run, run_model, getitem.
  destruct (ready self); [|by intros [=]%list_elem_of_singleton].
  destruct (params self !! "model") as [model|] eqn:Hm;
    [|by intros ?%elem_of_nil].
  destruct (py_eq model (VStr "TSEB_PT")) eqn:H1; [by constructed H1 is_image|].
  destruct (py_eq model (VStr "TSEB_2T")) eqn:H2; [by constructed H2 is_image|].
  destruct (py_eq model (VStr "DTD")) eqn:H3; [by constructed H3 is_image|].
  destruct (py_eq model (VStr "disTSEB")) eqn:H4; [by constructed H4 is_image|].
  destruct model; simpl;
    first [by intros ?%elem_of_nil | by intros [=]%list_elem_of_singleton].
Qed.

(** X14. On a ready object whose mapping names one of the four models,
    [run] constructs that class from the mapping and calls one entry point:
    in image mode the image one, returning [None]; in point mode the
    point-series one, returning what it yields. *)
Theorem run_known_model self is_image c :
  ready self = true →
  params self !! "model" = Some (VStr (class_name c)) →
  run self is_image
  = {| returned :=
         if is_image then Ok None
         else Ok (Some (process_point_series_array c (params self)));
       after := self;
       events :=
         [Construct c (params self);
          if is_image then ProcessLocalImage c else ProcessPointSeriesArray c] |}.
Proof.
  intros Hready Hm. unfold run, run_model, getitem. rewrite Hready, Hm.
  by destruct c, is_image.
Qed.

(** X15. On a ready object whose mapping names no known model (the match is
    by case and to the letter), [run] constructs nothing, prints the
    unknown name and returns [None]. *)
Theorem run_unknown_model self is_image name :
  ready self = true →
  params self !! "model" = Some (VStr name) →
  (∀ c, name ≠ class_name c) →
  run self is_image
  = {| returned := Ok None; after := self;
       events := [Print ("Unknown model: " +:+ name +:+ "!")] |}.
Proof.
  intros Hready Hm Hname. unfold run, getitem. rewrite Hready, Hm.
  assert (∀ c, py_eq (VStr name) (VStr (class_name c)) = false) as Hne
    by (intros c; apply eqb_ne, Hname).
  pose proof (Hne PyTSEB) as H1. pose proof (Hne PyTSEB2T) as H2.
  pose proof (Hne PyDTD) as H3. pose proof (Hne PydisTSEB) as H4.
  cbn [class_name] in H1, H2, H3, H4.
  by rewrite H1, H2, H3, H4.
Qed.

(** X16. On a ready object whose mapping has no [model], [run] raises
    [KeyError] for it before anything is constructed or printed. *)
Theorem run_missing_model self is_image :
  ready self = true →
  params self !! "model" = None →
  run self is_image
  = {| returned := Raise (KeyError "model"); after := self; events := [] |}.
Proof. intros Hready Hm. unfold run, getitem. by rewrite Hready, Hm. Qed.

(** The case of [run] in which class [c] was chosen and a series returned. *)
Ltac returned_series c mode :=
  destruct mode; simpl; [done|]; intros [= <-]; split; [done|]; exists c.

(** X17. Whatever [run] returns other than [None] is the point series of a
    model it constructed from the stored mapping: the call was in point
    mode and its events are that construction and the one call of the
    point-series entry point. *)
Theorem run_result_from_model self is_image r :
  returned (run self is_image) = Ok (Some r) →
  is_image = false
  ∧ ∃ c, events (run self is_image)
         = [Construct c (params self); ProcessPointSeriesArray c]
       ∧ r = process_point_series_array c (params self).
Proof.
  unfold run, run_model.
  destruct (ready self); [|done].
  destruct (getitem (params self) "model") as [model|e]; [|done].
  destruct (py_eq model (VStr "TSEB_PT")); [by returned_series PyTSEB is_image|].
  destruct (py_eq model (VStr "TSEB_2T")); [by returned_series PyTSEB2T is_image|].
  destruct (py_eq model (VStr "DTD")); [by returned_series PyDTD is_image|].
  destruct (py_eq model (VStr "disTSEB")); [by returned_series PydisTSEB is_image|].
  by destruct model.
Qed.

End Embedding.

(** ** Evaluation on concrete inputs *)

(** A fresh object is not ready, and [run] on it only prints. *)
Lemma run_not_ready_witness :
  ready TSEBConfigFileInterface_new = false
  ∧ run no_series TSEBConfigFileInterface_new false
    = {| returned := Ok None; after := TSEBConfigFileInterface_new;
         events := [Print "pyTSEB will not be run due to errors in the input data."] |}.
Proof.
  split; [reflexivity|].
  apply (run_not_ready no_series TSEBConfigFileInterface_new false).
  reflexivity.
Defined.



(** *** On a parser constructed with [interpolation=None]

    The string reads return the stored values, so the extractors get as far
    as their own defects. *)

(** The load of the [disTSEB] configuration without [flux_LR_method] ends
    at the first integer read, line 163. *)
Example get_data_disTSEB_no_method :
  get_data no_conversion no_conversion plain_value
    TSEBConfigFileInterface_new cfg_disTSEB_no_method true
  = {| returned := Raise (AttributeError "top_section");
       after := TSEBConfigFileInterface_new; events := [] |}.
Proof. vm_compute. reflexivity. Qed.

Example _parse_common_config_G_constant :
  _parse_common_config no_conversion no_conversion plain_value cfg_G_constant
  = Raise (AttributeError "top_section").
Proof. vm_compute. reflexivity. Qed.

Example _parse_common_config_calc_row_0 :
  _parse_common_config no_conversion no_conversion plain_value cfg_calc_row_0
  = Raise (AttributeError "top_section").
Proof. vm_compute. reflexivity. Qed.

(** With every field present and the model [TSEB_PT], image-mode extraction
    ends at the lookup of ['model'], line 201. *)
Example _parse_image_config_TSEB_PT :
  _parse_image_config plain_value cfg_image_TSEB_PT = Raise (KeyError "model").
Proof. vm_compute. reflexivity. Qed.

(** An option name is found whatever its case in the call. *)
Example get_KN_b :
  get plain_value cfg_image_TSEB_PT "KN_b" [] None = Ok (VStr "0.5").
Proof. vm_compute. reflexivity. Qed.

(** A second positional argument, as the inherited conversions pass it,
    does not fit the inherited [get]. *)
Example get_two_positional :
  get plain_value cfg_image_TSEB_PT "top" ["KN_b"] None
  = Raise (TypeError "get() takes 3 positional arguments").
Proof. vm_compute. reflexivity. Qed.

(** Point mode on a non-numeric [lat] ends at the float read of [KN_b],
    line 219. *)
Example _parse_point_config_lat_abc :
  _parse_point_config no_conversion plain_value cfg_point_lat_abc
  = Raise (AttributeError "top_section")
  ∧ get plain_value cfg_point_lat_abc "lat" [] None = Ok (VStr "abc").
Proof. split; vm_compute; reflexivity. Qed.

(** *** On a parser constructed with the default interpolation

    Every string read of an option that is present raises [TypeError] in
    the interpolation, so the extractors end at their first read: line 160
    for common extraction and for a load, line 194 for image mode. Point
    mode ends at line 219 as before, its first read being a float read. *)

Example get_KN_b_default :
  get basic_interpolation cfg_image_TSEB_PT "KN_b" [] None
  = Raise (TypeError "get() takes 3 positional arguments")
  ∧ get basic_interpolation cfg_image_TSEB_PT "no_such_option" [] None
    = Raise (NoOptionError "no_such_option" "top").
Proof. split; vm_compute; reflexivity. Qed.

Example get_data_disTSEB_no_method_default :
  get_data no_conversion no_conversion basic_interpolation
    TSEBConfigFileInterface_new cfg_disTSEB_no_method true
  = {| returned := Raise (TypeError "get() takes 3 positional arguments");
       after := TSEBConfigFileInterface_new; events := [] |}.
Proof. vm_compute. reflexivity. Qed.

Example _parse_common_config_default :
  _parse_common_config no_conversion no_conversion basic_interpolation
    cfg_G_constant
  = Raise (TypeError "get() takes 3 positional arguments")
  ∧ _parse_common_config no_conversion no_conversion basic_interpolation
      cfg_calc_row_0
    = Raise (TypeError "get() takes 3 positional arguments").
Proof. split; vm_compute; reflexivity. Qed.

Example _parse_image_config_TSEB_PT_default :
  _parse_image_config basic_interpolation cfg_image_TSEB_PT
  = Raise (TypeError "get() takes 3 positional arguments").
Proof. vm_compute. reflexivity. Qed.

Example _parse_point_config_lat_abc_default :
  _parse_point_config no_conversion basic_interpolation cfg_point_lat_abc
  = Raise (AttributeError "top_section").
Proof. vm_compute. reflexivity. Qed.

(** No path yields a parser, whether it opens or not. *)
Example parse_input_config_opened :
  parse_input_config no_lines {["tseb.cfg" := ["model = TSEB_PT"]]} "tseb.cfg"
  = parse_input_config no_lines ∅ "tseb.cfg".
Proof. reflexivity. Qed.

(** ** The further properties on concrete inputs *)

Lemma accessors_fold_case_witness :
  ascii_name "KN_b" = true
  ∧ ascii_name (optionxform "KN_b") = true
  ∧ get basic_interpolation cfg_image_TSEB_PT "KN_b" [] None
    = get basic_interpolation cfg_image_TSEB_PT (optionxform "KN_b") [] None
  ∧ has_option cfg_image_TSEB_PT "KN_b"
    = has_option cfg_image_TSEB_PT (optionxform "KN_b").
Proof.
  split; [reflexivity|].
  apply (accessors_fold_case basic_interpolation cfg_image_TSEB_PT "KN_b" [] None).
  reflexivity.
Defined.


Lemma has_option_own_section_witness :
  "other" ≠ section cfg_G_ratio
  ∧ has_option (with_section "other" {["model" := "DTD"]} cfg_G_ratio) "model"
    = has_option cfg_G_ratio "model".
Proof.
  split; [discriminate|].
  apply (has_option_own_section cfg_G_ratio "other" {["model" := "DTD"]} "model").
  discriminate.
Defined.

Lemma unread_parser_has_nothing_witness :
  "top" ≠ default_section
  ∧ MyConfigParser_new (Some "top") = Ok (unread "top")
  ∧ has_option (unread "top") "model" = Ok false
  ∧ get plain_value (unread "top") "model" [] None = Raise (NoSectionError "top").
Proof.
  split; [discriminate|].
  apply (unread_parser_has_nothing plain_value "top" "model"). discriminate.
Defined.

Lemma dict_comp_entries_witness :
  dict_comp (λ p, Ok (VStr p)) ["f_c"; "f_g"]
  = Ok (<["f_g" := VStr "f_g"]> (<["f_c" := VStr "f_c"]> ∅))
  ∧ ((<["f_g" := VStr "f_g"]> (<["f_c" := VStr "f_c"]> ∅) : dict) !! "f_g"
     = Some (VStr "f_g")
     ↔ "f_g" ∈ ["f_c"; "f_g"] ∧ Ok (A:=pyval) (VStr "f_g") = Ok (VStr "f_g")).
Proof.
  split; [reflexivity|].
  apply (dict_comp_entries (λ p, Ok (VStr p)) ["f_c"; "f_g"]
           (<["f_g" := VStr "f_g"]> (<["f_c" := VStr "f_c"]> ∅))
           "f_g" (VStr "f_g")).
  reflexivity.
Defined.

Lemma dict_comp_first_raise_witness :
  Forall (λ q, ∃ v, (if String.eqb q "lat" then Raise (KeyError q)
                     else Ok (VStr q)) = Ok v) ["landcover"]
  ∧ dict_comp (λ q, if String.eqb q "lat" then Raise (KeyError q) else Ok (VStr q))
      (["landcover"] ++ "lat" :: ["lon"])
    = Raise (KeyError "lat").
Proof.
  assert (Forall (λ q, ∃ v, (if String.eqb q "lat" then Raise (KeyError q)
                             else Ok (VStr q)) = Ok v) ["landcover"]) as Hok.
  { constructor; [by exists (VStr "landcover") | constructor]. }
  split; [exact Hok|].
  apply (dict_comp_first_raise
           (λ q, if String.eqb q "lat" then Raise (KeyError q) else Ok (VStr q))
           ["landcover"] "lat" ["lon"] (KeyError "lat") Hok).
  reflexivity.
Defined.

Lemma parse_image_config_missing_KN_b_witness :
  _sections cfg_empty !! section cfg_empty = Some ∅
  ∧ _parse_image_config plain_value cfg_empty
    = Raise (NoOptionError "kn_b" (section cfg_empty)).
Proof.
  split; [reflexivity|].
  apply (parse_image_config_missing_KN_b plain_value cfg_empty ∅); reflexivity.
Defined.

Lemma get_data_no_section_witness :
  _sections (unread "top") !! section (unread "top") = None
  ∧ section (unread "top") ≠ default_section
  ∧ get_data no_conversion no_conversion plain_value
      TSEBConfigFileInterface_new (unread "top") true
    = {| returned := Raise (NoSectionError (section (unread "top")));
         after := TSEBConfigFileInterface_new; events := [] |}.
Proof.
  split; [reflexivity|]. split; [discriminate|].
  apply (get_data_no_section no_conversion no_conversion plain_value
           TSEBConfigFileInterface_new (unread "top") true);
    [reflexivity | discriminate].
Defined.

Lemma get_data_missing_model_witness :
  _sections cfg_empty !! section cfg_empty = Some ∅
  ∧ get_data no_conversion no_conversion plain_value
      TSEBConfigFileInterface_new cfg_empty false
    = {| returned := Raise (NoOptionError "model" (section cfg_empty));
         after := TSEBConfigFileInterface_new; events := [] |}.
Proof.
  split; [reflexivity|].
  apply (get_data_missing_model no_conversion no_conversion plain_value
           TSEBConfigFileInterface_new cfg_empty false ∅); reflexivity.
Defined.

Lemma reachable_run_blocked_witness :
  reachable no_conversion no_conversion plain_value no_series
    (after (get_data no_conversion no_conversion plain_value
              TSEBConfigFileInterface_new cfg_disTSEB_no_method true))
  ∧ run no_series
      (after (get_data no_conversion no_conversion plain_value
                TSEBConfigFileInterface_new cfg_disTSEB_no_method true)) false
    = {| returned := Ok None;
         after := after (get_data no_conversion no_conversion plain_value
                           TSEBConfigFileInterface_new cfg_disTSEB_no_method true);
         events := [Print "pyTSEB will not be run due to errors in the input data."] |}.
Proof.
  assert (reachable no_conversion no_conversion plain_value no_series
            (after (get_data no_conversion no_conversion plain_value
                      TSEBConfigFileInterface_new cfg_disTSEB_no_method true)))
    as Hreach by (apply reachable_get_data, reachable_new).
  split; [exact Hreach|].
  apply (reachable_run_blocked no_conversion no_conversion plain_value no_series
           _ false Hreach).
Defined.

Lemma run_constructs_by_name_witness :
  Construct PyDTD (params (ready_with_model "DTD"))
    ∈ events (run no_series (ready_with_model "DTD") true)
  ∧ ready (ready_with_model "DTD") = true
  ∧ params (ready_with_model "DTD") = params (ready_with_model "DTD")
  ∧ params (ready_with_model "DTD") !! "model" = Some (VStr (class_name PyDTD)).
Proof.
  assert (Construct PyDTD (params (ready_with_model "DTD"))
            ∈ events (run no_series (ready_with_model "DTD") true)) as Hev.
  { change (events (run no_series (ready_with_model "DTD") true))
      with [Construct PyDTD (params (ready_with_model "DTD"));
            ProcessLocalImage PyDTD].
    apply list_elem_of_here. }
  split; [exact Hev|].
  apply (run_constructs_by_name no_series (ready_with_model "DTD") true PyDTD
           (params (ready_with_model "DTD")) Hev).
Defined.

Lemma run_known_model_witness :
  ready (ready_with_model "DTD") = true
  ∧ params (ready_with_model "DTD") !! "model" = Some (VStr (class_name PyDTD))
  ∧ run no_series (ready_with_model "DTD") false
    = {| returned := Ok (Some (no_series PyDTD (params (ready_with_model "DTD"))));
         after := ready_with_model "DTD";
         events := [Construct PyDTD (params (ready_with_model "DTD"));
                    ProcessPointSeriesArray PyDTD] |}.
Proof.
  split; [reflexivity|]. split; [reflexivity|].
  apply (run_known_model no_series (ready_with_model "DTD") false PyDTD);
    reflexivity.
Defined.

Lemma run_unknown_model_witness :
  ready (ready_with_model "tseb_pt") = true
  ∧ params (ready_with_model "tseb_pt") !! "model" = Some (VStr "tseb_pt")
  ∧ (∀ c, "tseb_pt" ≠ class_name c)
  ∧ run no_series (ready_with_model "tseb_pt") true
    = {| returned := Ok None; after := ready_with_model "tseb_pt";
         events := [Print ("Unknown model: " +:+ "tseb_pt" +:+ "!")] |}.
Proof.
  split; [reflexivity|]. split; [reflexivity|].
  split; [intros []; discriminate|].
  apply (run_unknown_model no_series (ready_with_model "tseb_pt") true "tseb_pt");
    [reflexivity | reflexivity | intros []; discriminate].
Defined.

Lemma run_missing_model_witness :
  ready ready_without_model = true
  ∧ params ready_without_model !! "model" = None
  ∧ run no_series ready_without_model false
    = {| returned := Raise (KeyError "model"); after := ready_without_model;
         events := [] |}.
Proof.
  split; [reflexivity|]. split; [reflexivity|].
  apply (run_missing_model no_series ready_without_model false); reflexivity.
Defined.

Lemma run_result_from_model_witness :
  returned (run no_series (ready_with_model "TSEB_2T") false)
  = Ok (Some (no_series PyTSEB2T (params (ready_with_model "TSEB_2T"))))
  ∧ false = false
  ∧ ∃ c, events (run no_series (ready_with_model "TSEB_2T") false)
         = [Construct c (params (ready_with_model "TSEB_2T"));
            ProcessPointSeriesArray c]
       ∧ no_series PyTSEB2T (params (ready_with_model "TSEB_2T"))
         = no_series c (params (ready_with_model "TSEB_2T")).
Proof.
  split; [reflexivity|].
  apply (run_result_from_model no_series (ready_with_model "TSEB_2T") false
           (no_series PyTSEB2T (params (ready_with_model "TSEB_2T")))).
  reflexivity.
Defined.
